(** * The signaling worker: rooms of short-lived offer/answer sessions

    A shallow embedding of [worker/src/worker.js]: the [Room] durable
    object (its in-memory [sessions] map, [gc] and [fetch]), the [json]
    and [withCORS] helpers and the top-level router, followed by the
    properties of the session store. *)

From Stdlib Require Import ZArith Floats Ascii String.
From stdpp Require Import gmap strings list fin_maps.

Set Warnings "-register-all".

Local Open Scope string_scope.
Local Open Scope list_scope.
Local Open Scope Z_scope.

(** ** JavaScript values *)

(** What [JSON.parse] can produce.  Numbers are IEEE doubles, as in
    JavaScript; an object keeps its members in source order, a later
    duplicate shadowing an earlier one. *)
Inductive json : Type :=
  | JNull
  | JBool (b : bool)
  | JNumber (f : float)
  | JString (s : string)
  | JArray (items : list json)
  | JObject (members : list (string * json)).

(** A value a property read can yield: [undefined], or a JSON value. *)
Inductive jsval : Type :=
  | JUndefined
  | JVal (v : json).

(** [Boolean(s)] on a string: only the empty string is falsy. *)
Definition truthy_string (s : string) : bool :=
  match s with
  | EmptyString => false
  | String _ _ => true
  end.

(** [Boolean(n)] on a number: [0], [-0] and [NaN] are falsy. *)
Definition truthy_number (f : float) : bool :=
  negb (PrimFloat.is_zero f || PrimFloat.is_nan f).

(** [Boolean(t)] on a timestamp, an integer number of milliseconds. *)
Definition truthy_time (t : Z) : bool := negb (Z.eqb t 0).

(** [Boolean(v)] on a parsed value; arrays and objects are always truthy. *)
Definition truthy (v : json) : bool :=
  match v with
  | JNull => false
  | JBool b => b
  | JNumber f => truthy_number f
  | JString s => truthy_string s
  | JArray _ => true
  | JObject _ => true
  end.

Definition truthy_val (v : jsval) : bool :=
  match v with
  | JUndefined => false
  | JVal j => truthy j
  end.

(** [v || null], as the argument of [JSON.stringify]. *)
Definition or_null (v : jsval) : json :=
  match v with
  | JUndefined => JNull
  | JVal j => if truthy j then j else JNull
  end.

(** The own member [name] of a parsed object: the last one with that name. *)
Fixpoint member (name : string) (members : list (string * json)) : option json :=
  match members with
  | [] => None
  | (k, v) :: rest =>
      match member name rest with
      | Some w => Some w
      | None => if String.eqb k name then Some v else None
      end
  end.

(** [v.name] for a name that is no built-in member of strings, arrays or
    [Object.prototype] (such as [answer]).  Reading a property of [null]
    raises a [TypeError]: [None]. *)
Definition get_prop (v : json) (name : string) : option jsval :=
  match v with
  | JNull => None
  | JObject members =>
      Some (match member name members with
            | Some w => JVal w
            | None => JUndefined
            end)
  | JBool _ | JNumber _ | JString _ | JArray _ => Some JUndefined
  end.

(** ** Requests and responses *)

(** What the handlers read of a [Request]: the method, the path of the
    URL, [url.searchParams.get("key")] ([None] for [null]) and the result
    of [req.json()] ([None] when the promise rejects: the body is missing
    or is not JSON). *)
Record request : Type := mkRequest {
  method : string;
  pathname : string;
  key_param : option string;
  body : option json
}.

(** What a request reads of its host: the value [crypto.randomUUID()]
    would return, and the readings of [Date.now()] in [gc] and when a
    session is stored. *)
Record host : Type := mkHost {
  uuid : string;
  now_gc : Z;
  now_set : Z
}.

(** The body of a [Response]; [BJson v] is the value [v] handed to
    [JSON.stringify]. *)
Inductive rbody : Type :=
  | BNone
  | BText (s : string)
  | BJson (v : json).

(** A [Response]: its status, its body and the headers the code sets. *)
Record response : Type := mkResponse {
  status : Z;
  content : rbody;
  headers : list (string * string)
}.

(** A handler returns a response or raises. *)
Inductive outcome : Type :=
  | Return (r : response)
  | Throw (e : string).

(** [h.set(name, value)] *)
Fixpoint hset (name value : string) (h : list (string * string)) : list (string * string) :=
  match h with
  | [] => [(name, value)]
  | (k, v) :: rest =>
      if String.eqb k name then (name, value) :: rest
      else (k, v) :: hset name value rest
  end.

Definition withCORS (resp : response) : response :=
  let h := headers resp in
  let h := hset "Access-Control-Allow-Origin" "*" h in
  let h := hset "Access-Control-Allow-Methods" "GET,POST,OPTIONS" h in
  let h := hset "Access-Control-Allow-Headers" "Content-Type" h in
  let h := hset "Cache-Control" "no-store" h in
  {| status := status resp; content := content resp; headers := h |}.

Definition json_status (obj : json) (st : Z) : response :=
  {| status := st;
     content := BJson obj;
     headers := [("content-type", "application/json"); ("Cache-Control", "no-store")] |}.

(** [json(obj)], with the default status. *)
Definition json_ok (obj : json) : response := json_status obj 200.

Definition not_found : response :=
  {| status := 404; content := BText "Not found"; headers := [] |}.

(** ** Paths *)

(** [s.split("/")] *)
Fixpoint split_slash (cur s : string) : list string :=
  match s with
  | EmptyString => [cur]
  | String c rest =>
      if Ascii.eqb c "/"%char then cur :: split_slash "" rest
      else split_slash (cur +:+ String c "") rest
  end.

(** [pathname.split("/").filter(Boolean)] *)
Definition path_parts (p : string) : list string :=
  List.filter truthy_string (split_slash "" p).

(** ** The room *)

(** A session: [{ offer, createdAt }], and [answer] once it was assigned
    ([None] while the property is absent). *)
Record entry : Type := mkEntry {
  offer : json;
  answer : option jsval;
  createdAt : Z
}.

(** [entry.answer] *)
Definition read_answer (e : entry) : jsval :=
  match answer e with
  | Some v => v
  | None => JUndefined
  end.

(** [entry.answer = v] *)
Definition set_answer (e : entry) (v : jsval) : entry :=
  {| offer := offer e; answer := Some v; createdAt := createdAt e |}.

Definition TTL : Z := 600.

(** The test of [gc]: [!v.createdAt || now - v.createdAt > ttlSec * 1000]. *)
Definition expired (ttlSec now : Z) (v : entry) : bool :=
  negb (truthy_time (createdAt v)) || Z.ltb (ttlSec * 1000) (now - createdAt v).

(** [gc(ttlSec)]: every entry of the map is visited once, and the expired
    ones are deleted. *)
Definition gc_ttl (ttlSec now : Z) (sessions : gmap string entry) : gmap string entry :=
  filter (λ kv, expired ttlSec now kv.2 = false) sessions.

(** [gc()], with the default of 600 seconds. *)
Definition gc (now : Z) (sessions : gmap string entry) : gmap string entry :=
  gc_ttl TTL now sessions.

(** [url.searchParams.get("key") || crypto.randomUUID()] *)
Definition request_key (req : request) (h : host) : string :=
  match key_param req with
  | Some k => if truthy_string k then k else uuid h
  | None => uuid h
  end.

(** [parts[2]], [undefined] ([None]) when the path is shorter. *)
Definition action_of (req : request) : option string :=
  path_parts (pathname req) !! 2%nat.

(** [a === name] for an [a] that is a string or [undefined]. *)
Definition is_str (a : option string) (name : string) : bool :=
  match a with
  | Some x => String.eqb x name
  | None => false
  end.

Definition invalid_offer : response :=
  json_status (JObject [("error", JString "invalid offer")]) 400.

Definition no_offer : response :=
  json_status (JObject [("error", JString "no offer")]) 404.

(** [Room.fetch(req)] on the room's [sessions]: the outcome, and the map
    the request leaves behind. *)
Definition Room_fetch (req : request) (h : host) (sessions : gmap string entry)
  : outcome * gmap string entry :=
  let method := method req in
  let action := action_of req in
  let key := request_key req h in
  let sessions := gc (now_gc h) sessions in
  if String.eqb method "POST" && is_str action "offer" then
    let offer := match body req with Some v => v | None => JNull end in
    if negb (truthy offer) then (Return invalid_offer, sessions)
    else
      (Return (json_ok (JObject [("key", JString key)])),
       <[key := {| offer := offer; answer := None; createdAt := now_set h |}]> sessions)
  else if String.eqb method "POST" && is_str action "answer" then
    let body := match body req with Some v => v | None => JObject [] end in
    match sessions !! key with
    | None => (Return no_offer, sessions)
    | Some entry =>
        if negb (truthy (offer entry)) then (Return no_offer, sessions)
        else
          match get_prop body "answer" with
          | None => (Throw "TypeError", sessions)
          | Some a =>
              (Return (json_ok (JObject [("ok", JBool true)])),
               <[key := set_answer entry a]> sessions)
          end
    end
  else if String.eqb method "GET" && is_str action "get" then
    match sessions !! key with
    | None => (Return not_found, sessions)
    | Some entry =>
        (Return (json_ok (JObject [("offer", offer entry);
                                   ("answer", or_null (read_answer entry))])),
         sessions)
    end
  else (Return not_found, sessions).

(** ** The router *)

(** The [ROOM] binding of the host: [idFromName(slug)] and [get(id)] address
    the one [Room] instance of that name, which the host constructs, with
    an empty [sessions] map, when the name is first used. *)
Definition room_of (rooms : gmap string (gmap string entry)) (slug : string)
  : gmap string entry :=
  default ∅ (rooms !! slug).

Definition cors_preflight : response :=
  {| status := 204;
     content := BNone;
     headers := [("Access-Control-Allow-Origin", "*");
                 ("Access-Control-Allow-Methods", "GET,POST,OPTIONS");
                 ("Access-Control-Allow-Headers", "Content-Type");
                 ("Cache-Control", "no-store")] |}.

(** The default export's [fetch(req, env)], over all the rooms of [env.ROOM]. *)
Definition fetch (req : request) (h : host) (rooms : gmap string (gmap string entry))
  : outcome * gmap string (gmap string entry) :=
  if String.eqb (method req) "OPTIONS" then (Return cors_preflight, rooms)
  else if String.eqb (pathname req) "/health" then
    (Return (withCORS {| status := 200; content := BText "ok"; headers := [] |}), rooms)
  else
    let parts := path_parts (pathname req) in
    (* parts[0] === "room" && parts.length >= 3 *)
    match parts with
    | p0 :: slug :: _ :: _ =>
        if String.eqb p0 "room" then
          let '(out, sessions) := Room_fetch req h (room_of rooms slug) in
          (match out with
           | Return resp => Return (withCORS resp)
           | Throw e => Throw e
           end,
           <[slug := sessions]> rooms)
        else (Return (withCORS not_found), rooms)
    | _ => (Return (withCORS not_found), rooms)
    end.

(** ** The three operations, as requests

    [CreateOffer key payload], [SubmitAnswer key payload] and
    [ReadSession key] name the requests that reach the three branches of
    [Room.fetch]; [key] is the [key] query parameter and [payload] the
    outcome of parsing the body. *)
Definition CreateOffer (key : option string) (payload : option json) (req : request) : Prop :=
  method req = "POST" ∧ action_of req = Some "offer" ∧
  key_param req = key ∧ body req = payload.

Definition SubmitAnswer (key : option string) (payload : option json) (req : request) : Prop :=
  method req = "POST" ∧ action_of req = Some "answer" ∧
  key_param req = key ∧ body req = payload.

Definition ReadSession (key : option string) (req : request) : Prop :=
  method req = "GET" ∧ action_of req = Some "get" ∧ key_param req = key.

(** The response of [ReadSession] for a stored session. *)
Definition session_view (o a : json) : response :=
  json_ok (JObject [("offer", o); ("answer", a)]).

Definition key_view (k : string) : response :=
  json_ok (JObject [("key", JString k)]).

Definition ok_view : response := json_ok (JObject [("ok", JBool true)]).

(** A session as [CreateOffer] stores it. *)
Definition fresh_entry (o : json) (now : Z) : entry :=
  {| offer := o; answer := None; createdAt := now |}.

(** ** Histories of a room *)

(** What happens to a room: a request, or a sweep on its own. *)
Inductive event : Type :=
  | EvFetch (req : request) (h : host)
  | EvGc (ttlSec now : Z).

Definition step (sessions : gmap string entry) (ev : event) : gmap string entry :=
  match ev with
  | EvFetch req h => (Room_fetch req h sessions).2
  | EvGc ttlSec now => gc_ttl ttlSec now sessions
  end.

(** The map of a room constructed empty that has seen [history]. *)
Definition run (history : list event) : gmap string entry :=
  foldl step ∅ history.

(** [k] holds [e] since a [CreateOffer] of the history stored it there:
    the payload of that request is the offer, and the clock reading of that
    request is [createdAt]. *)
Definition created_by (history : list event) (k : string) (e : entry) : Prop :=
  ∃ req h,
    EvFetch req h ∈ history ∧
    CreateOffer (key_param req) (Some (offer e)) req ∧
    request_key req h = k ∧
    createdAt e = now_set h.

(** Every stored session has an offer, and was created by the history. *)
Definition session_inv (history : list event) (sessions : gmap string entry) : Prop :=
  ∀ k e, sessions !! k = Some e →
    truthy (offer e) = true ∧ created_by history k e.

(** The router forwards [req] to the room [slug]. *)
Definition routed_to (req : request) (slug : string) : Prop :=
  method req ≠ "OPTIONS" ∧
  ∃ action rest, path_parts (pathname req) = "room" :: slug :: action :: rest.

(** ** Reading responses and building paths *)

(** [h.get(name)] *)
Fixpoint hget (name : string) (h : list (string * string)) : option string :=
  match h with
  | [] => None
  | (k, v) :: rest => if String.eqb k name then Some v else hget name rest
  end.

(** The four headers that [withCORS] sets, the ones of the preflight
    response. *)
Definition cors_headers : list (string * string) :=
  [("Access-Control-Allow-Origin", "*");
   ("Access-Control-Allow-Methods", "GET,POST,OPTIONS");
   ("Access-Control-Allow-Headers", "Content-Type");
   ("Cache-Control", "no-store")].

Definition has_cors (r : response) : Prop :=
  ∀ name value, (name, value) ∈ cors_headers → hget name (headers r) = Some value.

(** The response of the health check, before [withCORS]. *)
Definition health_ok : response :=
  {| status := 200; content := BText "ok"; headers := [] |}.

(** No character of [s] is a slash. *)
Fixpoint no_slash (s : string) : bool :=
  match s with
  | EmptyString => true
  | String c rest => negb (Ascii.eqb c "/"%char) && no_slash rest
  end.

(** The path [/room/slug/action]. *)
Definition room_path (slug action : string) : string :=
  "/room/" +:+ slug +:+ "/" +:+ action.


(** The hosts of the requests of a history. *)
Definition uuids_nonempty (history : list event) : Prop :=
  ∀ req h, EvFetch req h ∈ history → uuid h ≠ "".

(** ** Sample traffic *)

Definition sample_offer : json :=
  JObject [("type", JString "offer"); ("sdp", JString "v=0")].

Definition sample_answer : json :=
  JObject [("type", JString "answer"); ("sdp", JString "v=0")].

Definition sample_uuid : string := "123e4567-e89b-42d3-a456-426614174000".

Definition post_offer (key : option string) (payload : option json) : request :=
  mkRequest "POST" "/room/alpha/offer" key payload.

Definition post_answer (key : option string) (payload : option json) : request :=
  mkRequest "POST" "/room/alpha/answer" key payload.

Definition get_session (key : option string) : request :=
  mkRequest "GET" "/room/alpha/get" key None.

Definition get_session_beta (key : option string) : request :=
  mkRequest "GET" "/room/beta/get" key None.

(** A host whose clock reads [now] throughout the request. *)
Definition host_at (now : Z) : host := mkHost sample_uuid now now.

(** ** Examples *)

Example path_parts_offer : path_parts "/room/abc/offer" = ["room"; "abc"; "offer"].
Proof. reflexivity. Qed.

Example path_parts_slashes : path_parts "//room//abc/get/" = ["room"; "abc"; "get"].
Proof. reflexivity. Qed.

Example gc_example :
  gc 700000 (<["a" := mkEntry (JBool true) None 1]>
               (<["b" := mkEntry (JBool true) None 100000]> ∅))
  = {["b" := mkEntry (JBool true) None 100000]}.
Proof. vm_compute. reflexivity. Qed.

Example falsy_numbers :
  truthy (JNumber 0%float) = false ∧ truthy (JNumber (-0)%float) = false ∧
  truthy (JNumber PrimFloat.nan) = false ∧ truthy (JNumber 1%float) = true.
Proof. vm_compute. done. Qed.

(** The offer handler stores the parsed body itself: a body of the shape
    [{offer: X}] is read back wrapped, as [{offer: {offer: X}, ...}]. *)
Example offer_body_stored_whole :
  let body := JObject [("offer", sample_offer)] in
  let s1 := (Room_fetch (post_offer (Some "k1") (Some body)) (host_at 1000) ∅).2 in
  (Room_fetch (get_session (Some "k1")) (host_at 2000) s1).1
  = Return (session_view body JNull).
Proof. vm_compute. reflexivity. Qed.

Example answer_of_null_body : get_prop JNull "answer" = None.
Proof. reflexivity. Qed.

Example answer_last_wins :
  get_prop (JObject [("answer", JBool true); ("answer", JString "x")]) "answer"
  = Some (JVal (JString "x")).
Proof. reflexivity. Qed.

(** * Properties *)

(** ** The sweep *)

Lemma expired_false ttlSec now e :
  expired ttlSec now e = false ↔
  createdAt e ≠ 0 ∧ now - createdAt e ≤ ttlSec * 1000.
Proof.
  unfold expired, truthy_time.
  rewrite orb_false_iff, negb_false_iff, negb_true_iff.
  rewrite Z.eqb_neq, Z.ltb_ge. done.
Qed.

Lemma expired_true ttlSec now e :
  expired ttlSec now e = true ↔
  createdAt e = 0 ∨ ttlSec * 1000 < now - createdAt e.
Proof.
  unfold expired, truthy_time.
  rewrite orb_true_iff, negb_true_iff, negb_false_iff.
  rewrite Z.eqb_eq, Z.ltb_lt. done.
Qed.

Lemma gc_ttl_lookup_Some ttlSec now (s : gmap string entry) k e :
  gc_ttl ttlSec now s !! k = Some e ↔ s !! k = Some e ∧ expired ttlSec now e = false.
Proof. unfold gc_ttl. by rewrite map_lookup_filter_Some. Qed.

Lemma gc_ttl_lookup_None ttlSec now (s : gmap string entry) k :
  gc_ttl ttlSec now s !! k = None ↔
  ∀ e, s !! k = Some e → expired ttlSec now e = true.
Proof.
  unfold gc_ttl. rewrite map_lookup_filter_None. split.
  - intros [Hn | Hall] e He; [congruence |].
    specialize (Hall e He). simpl in Hall. by destruct (expired ttlSec now e).
  - intros Hall. destruct (s !! k) as [e |] eqn:He; [right | by left].
    intros e' [= <-]. simpl. rewrite (Hall e eq_refl). done.
Qed.

Lemma gc_lookup_live now (s : gmap string entry) k e :
  s !! k = Some e → expired TTL now e = false → gc now s !! k = Some e.
Proof. intros. by apply gc_ttl_lookup_Some. Qed.

Lemma gc_lookup_expired now (s : gmap string entry) k e :
  s !! k = Some e → expired TTL now e = true → gc now s !! k = None.
Proof.
  intros He Hx. apply gc_ttl_lookup_None. intros e' He'. congruence.
Qed.

Lemma gc_lookup_absent now (s : gmap string entry) k :
  s !! k = None → gc now s !! k = None.
Proof. intros Hn. apply gc_ttl_lookup_None. intros e He. congruence. Qed.

Lemma gc_lookup_inv now (s : gmap string entry) k e :
  gc now s !! k = Some e → s !! k = Some e.
Proof. intros H. by apply gc_ttl_lookup_Some in H as [? _]. Qed.

Lemma gc_idemp now (s : gmap string entry) : gc now (gc now s) = gc now s.
Proof.
  apply map_eq. intros k. apply option_eq. intros e. unfold gc.
  rewrite !gc_ttl_lookup_Some. tauto.
Qed.

(** ** The branches of [Room.fetch] *)

Lemma fetch_offer_eq req h s k p :
  CreateOffer k p req →
  Room_fetch req h s =
    let g := gc (now_gc h) s in
    match p with
    | Some v =>
        if truthy v
        then (Return (key_view (request_key req h)),
              <[request_key req h := fresh_entry v (now_set h)]> g)
        else (Return invalid_offer, g)
    | None => (Return invalid_offer, g)
    end.
Proof.
  intros (Hm & Ha & _ & Hb). unfold Room_fetch. rewrite Hm, Ha, Hb. simpl.
  destruct p as [v |]; simpl; [| done]. by destruct (truthy v).
Qed.

Lemma fetch_answer_eq req h s k p :
  SubmitAnswer k p req →
  Room_fetch req h s =
    let g := gc (now_gc h) s in
    match g !! request_key req h with
    | None => (Return no_offer, g)
    | Some e =>
        if truthy (offer e) then
          match get_prop (default (JObject []) p) "answer" with
          | None => (Throw "TypeError", g)
          | Some a => (Return ok_view, <[request_key req h := set_answer e a]> g)
          end
        else (Return no_offer, g)
    end.
Proof.
  intros (Hm & Ha & _ & Hb). unfold Room_fetch. rewrite Hm, Ha, Hb. simpl.
  destruct (gc (now_gc h) s !! request_key req h) as [e |]; [| done].
  destruct (truthy (offer e)); simpl; [| done].
  by destruct p.
Qed.

Lemma fetch_get_eq req h s k :
  ReadSession k req →
  Room_fetch req h s =
    let g := gc (now_gc h) s in
    match g !! request_key req h with
    | None => (Return not_found, g)
    | Some e => (Return (session_view (offer e) (or_null (read_answer e))), g)
    end.
Proof.
  intros (Hm & Ha & _). unfold Room_fetch. rewrite Hm, Ha. simpl. done.
Qed.

Lemma request_key_given req h k K :
  key_param req = k → k = Some K → K ≠ "" → request_key req h = K.
Proof.
  intros Hk -> HK. unfold request_key. rewrite Hk. by destruct K.
Qed.

Lemma request_key_generated req h :
  key_param req = None ∨ key_param req = Some "" → request_key req h = uuid h.
Proof. unfold request_key. by intros [-> | ->]. Qed.

(** Whatever the request, the sweep comes first: the request sees the map
    only through it, and no request brings back what it removed. *)
Lemma fetch_after_gc req h s :
  Room_fetch req h s = Room_fetch req h (gc (now_gc h) s).
Proof. unfold Room_fetch. by rewrite gc_idemp. Qed.

Lemma fresh_entry_live o T now :
  T ≠ 0 → now - T ≤ TTL * 1000 → expired TTL now (fresh_entry o T) = false.
Proof. intros. by apply expired_false. Qed.

Lemma set_answer_live now e a :
  expired TTL now (set_answer e a) = expired TTL now e.
Proof. done. Qed.

(** ** Round trip *)

(** C1. Round trip: [CreateOffer] without a key and with offer payload [O]
    returns the generated key [K]; [SubmitAnswer] for [K] with answer
    payload [A] then returns [{ok:true}]; [ReadSession] for [K] then
    returns [{offer: O, answer: A}], the two later requests arriving within
    the TTL of the creation.  [O] and [A] are payloads the handlers take
    for present (truthy values), [K] is a non-empty string and the clock
    reads a time after the epoch. *)
Theorem round_trip (s : gmap string entry) r1 r2 r3 h1 h2 h3 (O A : json) :
  CreateOffer None (Some O) r1 →
  truthy O = true →
  uuid h1 ≠ "" →
  SubmitAnswer (Some (uuid h1)) (Some (JObject [("answer", A)])) r2 →
  truthy A = true →
  ReadSession (Some (uuid h1)) r3 →
  0 < now_set h1 →
  now_gc h2 - now_set h1 ≤ TTL * 1000 →
  now_gc h3 - now_set h1 ≤ TTL * 1000 →
  let s1 := (Room_fetch r1 h1 s).2 in
  let s2 := (Room_fetch r2 h2 s1).2 in
  (Room_fetch r1 h1 s).1 = Return (key_view (uuid h1)) ∧
  (Room_fetch r2 h2 s1).1 = Return ok_view ∧
  (Room_fetch r3 h3 s2).1 = Return (session_view O A).
Proof.
  intros H1 HO HK H2 HA H3 HT Ht2 Ht3.
  assert (Hk1 : request_key r1 h1 = uuid h1).
  { apply request_key_generated. left. apply H1. }
  assert (Hk2 : request_key r2 h2 = uuid h1).
  { eapply request_key_given; [apply H2 | done..]. }
  assert (Hk3 : request_key r3 h3 = uuid h1).
  { eapply request_key_given; [apply H3 | done..]. }
  rewrite (fetch_offer_eq _ _ _ _ _ H1). cbn zeta. rewrite HO, Hk1. simpl.
  split; [done |].
  rewrite (fetch_answer_eq _ _ _ _ _ H2). cbn zeta. rewrite Hk2.
  rewrite (gc_lookup_live _ _ _ (fresh_entry O (now_set h1)));
    [| apply lookup_insert_eq | apply fresh_entry_live; lia].
  cbn [fresh_entry offer]. rewrite HO.
  assert (HgA : get_prop (default (JObject []) (Some (JObject [("answer", A)]))) "answer"
                = Some (JVal A)) by done.
  rewrite HgA. simpl. split; [done |].
  rewrite (fetch_get_eq _ _ _ _ H3). cbn zeta. rewrite Hk3.
  rewrite (gc_lookup_live _ _ _ (set_answer (fresh_entry O (now_set h1)) (JVal A)));
    [| apply lookup_insert_eq | apply fresh_entry_live; lia].
  simpl. by rewrite HA.
Qed.

Lemma round_trip_witness :
  let s1 := (Room_fetch (post_offer None (Some sample_offer)) (host_at 1000) ∅).2 in
  let r2 := post_answer (Some sample_uuid) (Some (JObject [("answer", sample_answer)])) in
  let s2 := (Room_fetch r2 (host_at 2000) s1).2 in
  (Room_fetch (post_offer None (Some sample_offer)) (host_at 1000) ∅).1
    = Return (key_view sample_uuid) ∧
  (Room_fetch r2 (host_at 2000) s1).1 = Return ok_view ∧
  (Room_fetch (get_session (Some sample_uuid)) (host_at 3000) s2).1
    = Return (session_view sample_offer sample_answer).
Proof.
  apply (round_trip ∅ (post_offer None (Some sample_offer))
           (post_answer (Some sample_uuid) (Some (JObject [("answer", sample_answer)])))
           (get_session (Some sample_uuid))
           (host_at 1000) (host_at 2000) (host_at 3000) sample_offer sample_answer).
  - repeat split; reflexivity.
  - reflexivity.
  - discriminate.
  - repeat split; reflexivity.
  - reflexivity.
  - repeat split; reflexivity.
  - simpl; lia.
  - simpl; unfold TTL; lia.
  - simpl; unfold TTL; lia.
Defined.

(** ** Expiry *)

(** C2. TTL expiry: a record created at time [T] (after the epoch) is
    returned by [ReadSession] at [T + TTL - eps] and is not found at
    [T + TTL + eps], for every [eps > 0] and the default TTL of 600
    seconds (times in milliseconds); because the sweep keeps exactly
    the sessions whose [createdAt] is truthy and at most the TTL old, and
    every request sees the map only after the sweep. *)
Theorem ttl_expiry (s : gmap string entry) r1 h1 r2 h2 k (K : string) (O : json) (eps : Z) :
  CreateOffer k (Some O) r1 →
  truthy O = true →
  request_key r1 h1 = K →
  K ≠ "" →
  ReadSession (Some K) r2 →
  0 < now_set h1 →
  0 < eps →
  let T := now_set h1 in
  let s1 := (Room_fetch r1 h1 s).2 in
  s1 !! K = Some (fresh_entry O T) ∧
  (now_gc h2 = T + TTL * 1000 - eps →
     (Room_fetch r2 h2 s1).1 = Return (session_view O JNull)) ∧
  (now_gc h2 = T + TTL * 1000 + eps →
     (Room_fetch r2 h2 s1).1 = Return not_found ∧
     (Room_fetch r2 h2 s1).2 !! K = None) ∧
  (∀ now (m : gmap string entry) j e,
     gc now m !! j = Some e ↔
     m !! j = Some e ∧ createdAt e ≠ 0 ∧ now - createdAt e ≤ TTL * 1000) ∧
  (∀ req h (m : gmap string entry),
     Room_fetch req h m = Room_fetch req h (gc (now_gc h) m)).
Proof.
  intros H1 HO HK1 HK H2 HT Heps T s1.
  assert (Hk2 : request_key r2 h2 = K).
  { eapply request_key_given; [apply H2 | done..]. }
  assert (Hs1 : s1 !! K = Some (fresh_entry O T)).
  { subst s1. rewrite (fetch_offer_eq _ _ _ _ _ H1). cbn zeta.
    rewrite HO, HK1. simpl. apply lookup_insert_eq. }
  split; [done |]. split; [| split; [| split]].
  - intros Hnow. rewrite (fetch_get_eq _ _ _ _ H2). cbn zeta. rewrite Hk2.
    rewrite (gc_lookup_live _ _ _ _ Hs1); [done |].
    apply fresh_entry_live; subst T; lia.
  - intros Hnow. rewrite (fetch_get_eq _ _ _ _ H2). cbn zeta. rewrite Hk2.
    assert (Hx : gc (now_gc h2) s1 !! K = None).
    { apply (gc_lookup_expired _ _ _ _ Hs1). apply expired_true.
      right. cbn [fresh_entry createdAt]. subst T. unfold TTL in *. lia. }
    rewrite Hx. done.
  - intros now m j e. unfold gc. rewrite gc_ttl_lookup_Some, expired_false. done.
  - intros req h m. apply fetch_after_gc.
Qed.

Lemma ttl_expiry_witness :
  let r1 := post_offer (Some "k1") (Some sample_offer) in
  let s1 := (Room_fetch r1 (host_at 5000) ∅).2 in
  (Room_fetch (get_session (Some "k1")) (host_at (5000 + TTL * 1000 - 1)) s1).1
    = Return (session_view sample_offer JNull) ∧
  (Room_fetch (get_session (Some "k1")) (host_at (5000 + TTL * 1000 + 1)) s1).1
    = Return not_found.
Proof.
  pose proof (ttl_expiry ∅ (post_offer (Some "k1") (Some sample_offer)) (host_at 5000)
                (get_session (Some "k1")) (host_at (5000 + TTL * 1000 - 1))
                (Some "k1") "k1" sample_offer 1) as Hlive.
  pose proof (ttl_expiry ∅ (post_offer (Some "k1") (Some sample_offer)) (host_at 5000)
                (get_session (Some "k1")) (host_at (5000 + TTL * 1000 + 1))
                (Some "k1") "k1" sample_offer 1) as Hdead.
  split.
  - apply Hlive; try reflexivity; try discriminate; repeat split; reflexivity.
  - apply Hdead; try reflexivity; try discriminate; repeat split; reflexivity.
Defined.

(** ** Overwriting a key *)

(** C3. Override resets answer: when key [K] already holds a record with
    a prior answer [A], [CreateOffer] for [K] with [newOffer] replaces the
    record by one with that offer, no answer and [createdAt] the time of
    the overwrite, so that a following [ReadSession] for [K] (within the
    TTL) returns [{offer: newOffer, answer: null}]. *)
Theorem override_resets_answer (s : gmap string entry) r1 h1 r2 h2
    (K : string) (e : entry) (A newOffer : json) :
  s !! K = Some e →
  answer e = Some (JVal A) →
  K ≠ "" →
  CreateOffer (Some K) (Some newOffer) r1 →
  truthy newOffer = true →
  ReadSession (Some K) r2 →
  0 < now_set h1 →
  now_gc h2 - now_set h1 ≤ TTL * 1000 →
  let s1 := (Room_fetch r1 h1 s).2 in
  (Room_fetch r1 h1 s).1 = Return (key_view K) ∧
  s1 !! K = Some {| offer := newOffer; answer := None; createdAt := now_set h1 |} ∧
  (Room_fetch r2 h2 s1).1 = Return (session_view newOffer JNull).
Proof.
  intros _ _ HK H1 HO H2 HT Ht s1.
  assert (Hk1 : request_key r1 h1 = K).
  { eapply request_key_given; [apply H1 | done..]. }
  assert (Hk2 : request_key r2 h2 = K).
  { eapply request_key_given; [apply H2 | done..]. }
  assert (Hs1 : s1 !! K = Some (fresh_entry newOffer (now_set h1))).
  { subst s1. rewrite (fetch_offer_eq _ _ _ _ _ H1). cbn zeta.
    rewrite HO, Hk1. simpl. apply lookup_insert_eq. }
  split; [| split; [done |]].
  - rewrite (fetch_offer_eq _ _ _ _ _ H1). cbn zeta. by rewrite HO, Hk1.
  - rewrite (fetch_get_eq _ _ _ _ H2). cbn zeta. rewrite Hk2.
    rewrite (gc_lookup_live _ _ _ _ Hs1); [done |].
    apply fresh_entry_live; lia.
Qed.

Lemma override_resets_answer_witness :
  let s := {["k1" := set_answer (fresh_entry sample_offer 1000) (JVal sample_answer)]} in
  let r1 := post_offer (Some "k1") (Some (JString "new offer")) in
  (Room_fetch r1 (host_at 2000) s).1 = Return (key_view "k1") ∧
  (Room_fetch r1 (host_at 2000) s).2 !! "k1"
    = Some {| offer := JString "new offer"; answer := None; createdAt := 2000 |} ∧
  (Room_fetch (get_session (Some "k1")) (host_at 3000) (Room_fetch r1 (host_at 2000) s).2).1
    = Return (session_view (JString "new offer") JNull).
Proof.
  apply (override_resets_answer
           {["k1" := set_answer (fresh_entry sample_offer 1000) (JVal sample_answer)]}
           (post_offer (Some "k1") (Some (JString "new offer"))) (host_at 2000)
           (get_session (Some "k1")) (host_at 3000)
           "k1" (set_answer (fresh_entry sample_offer 1000) (JVal sample_answer))
           sample_answer (JString "new offer")).
  - apply lookup_singleton_eq.
  - reflexivity.
  - discriminate.
  - repeat split; reflexivity.
  - reflexivity.
  - repeat split; reflexivity.
  - simpl; lia.
  - simpl; unfold TTL; lia.
Defined.

(** ** Creating an offer *)

Lemma truthy_false_cases v :
  truthy v = false ↔
  v = JNull ∨ v = JBool false ∨ v = JString "" ∨
  ∃ f, v = JNumber f ∧ (PrimFloat.is_zero f || PrimFloat.is_nan f) = true.
Proof.
  split.
  - destruct v as [| [] | f | [| c r] | |]; simpl; try discriminate; eauto.
    unfold truthy_number. rewrite negb_false_iff. eauto 6.
  - intros [-> | [-> | [-> | (f & -> & Hf)]]]; simpl; try done.
    unfold truthy_number. by rewrite Hf.
Qed.

(** C4, as stated, fails: the body [false] is parsed by [req.json()], and
    [CreateOffer] answers it with 400 and stores nothing. *)
Lemma create_offer_rejects_parsed_false :
  let req := post_offer (Some "k1") (Some (JBool false)) in
  CreateOffer (Some "k1") (Some (JBool false)) req ∧
  Room_fetch req (host_at 1000) ∅ = (Return invalid_offer, ∅) ∧
  status invalid_offer = 400 ∧
  (Room_fetch req (host_at 1000) ∅).1 ≠ Return (key_view "k1").
Proof. vm_compute. repeat split; discriminate. Qed.

(** C4, amended. [CreateOffer] fails with 400 [{error:"invalid offer"}],
    leaving the map as the sweep left it, exactly when the body is
    missing, is not JSON, or parses to a falsy value ([null], [false],
    a zero or NaN number, the empty string); for every body that parses to
    a truthy value it stores the record under the key of the request and
    returns 200 with that key. *)
Theorem create_offer_outcome (s : gmap string entry) req h k p :
  CreateOffer k p req →
  let g := gc (now_gc h) s in
  let key := request_key req h in
  let falsy := p = None ∨ ∃ v, p = Some v ∧ truthy v = false in
  (falsy → Room_fetch req h s = (Return invalid_offer, g)) ∧
  ((Room_fetch req h s).1 = Return invalid_offer → falsy) ∧
  (∀ v, p = Some v → truthy v = true →
     Room_fetch req h s =
       (Return (key_view key),
        <[key := {| offer := v; answer := None; createdAt := now_set h |}]> g)) ∧
  status invalid_offer = 400 ∧ status (key_view key) = 200.
Proof.
  intros H g key falsy. rewrite (fetch_offer_eq _ _ _ _ _ H). cbn zeta.
  fold g key. subst falsy. split; [| split; [| split; [| done]]].
  - intros [-> | (v & -> & Hv)]; [done | by rewrite Hv].
  - destruct p as [v |]; [| by left].
    destruct (truthy v) eqn:Hv; [discriminate |]. right. eauto.
  - intros v -> Hv. by rewrite Hv.
Qed.

Lemma create_offer_outcome_witness :
  Room_fetch (post_offer (Some "k1") (Some sample_offer)) (host_at 1000) ∅ =
    (Return (key_view "k1"),
     <["k1" := {| offer := sample_offer; answer := None; createdAt := 1000 |}]>
       (gc 1000 ∅)).
Proof.
  apply (create_offer_outcome ∅ (post_offer (Some "k1") (Some sample_offer))
           (host_at 1000) (Some "k1") (Some sample_offer)).
  - repeat split; reflexivity.
  - reflexivity.
  - reflexivity.
Defined.

(** ** Submitting an answer *)

(** C5. [SubmitAnswer] mutates at most the answer field of the addressed
    record.  With [g] the map after the sweep: every other key keeps its
    record; when [g] has no record for the key the response is the 404
    [{error:"no offer"}] and the map stays [g] (no record is created);
    when it has one, its offer and [createdAt] are kept, and (the record
    having an offer, and the body one whose [answer] can be read) its
    answer is set to the submitted one. *)
Theorem submit_answer_frame (s : gmap string entry) req h k p :
  SubmitAnswer k p req →
  let g := gc (now_gc h) s in
  let K := request_key req h in
  let s' := (Room_fetch req h s).2 in
  (∀ j, j ≠ K → s' !! j = g !! j) ∧
  (g !! K = None → Room_fetch req h s = (Return no_offer, g)) ∧
  (∀ e, g !! K = Some e →
     ∃ e', s' !! K = Some e' ∧ offer e' = offer e ∧ createdAt e' = createdAt e) ∧
  (∀ e a, g !! K = Some e → truthy (offer e) = true →
     get_prop (default (JObject []) p) "answer" = Some a →
     Room_fetch req h s = (Return ok_view, <[K := set_answer e a]> g) ∧
     set_answer e a = {| offer := offer e; answer := Some a; createdAt := createdAt e |}).
Proof.
  intros H g K s'. subst s'. rewrite (fetch_answer_eq _ _ _ _ _ H). cbn zeta.
  fold g K. split; [| split; [| split]].
  - intros j Hj. destruct (g !! K) as [e |]; [| done].
    destruct (truthy (offer e)); [| done].
    destruct (get_prop _ _); [| done]. simpl. by rewrite lookup_insert_ne.
  - by intros ->.
  - intros e He. rewrite He.
    destruct (truthy (offer e)); [| by exists e].
    destruct (get_prop _ _) as [a |]; [| by exists e].
    exists (set_answer e a). simpl. by rewrite lookup_insert_eq.
  - intros e a He Ho Ha. by rewrite He, Ho, Ha.
Qed.

Lemma submit_answer_frame_witness :
  let s := {["k1" := fresh_entry sample_offer 1000]} in
  let req := post_answer (Some "k1") (Some (JObject [("answer", sample_answer)])) in
  Room_fetch req (host_at 2000) s =
    (Return ok_view,
     <["k1" := set_answer (fresh_entry sample_offer 1000) (JVal sample_answer)]>
       (gc 2000 s)).
Proof.
  intros s req.
  destruct (submit_answer_frame s req (host_at 2000) (Some "k1")
              (Some (JObject [("answer", sample_answer)]))) as (_ & _ & _ & Hset).
  - repeat split; reflexivity.
  - apply (Hset (fresh_entry sample_offer 1000) (JVal sample_answer)).
    + vm_compute. reflexivity.
    + reflexivity.
    + reflexivity.
Defined.

(** C6. Malformed answer tolerated: when key [K] holds a record with an
    offer, [SubmitAnswer] for [K] with a body that cannot be parsed
    returns [{ok:true}] and stores [undefined] as the answer, and a
    following [ReadSession] for [K] returns the answer as [null]. *)
Theorem malformed_answer_tolerated (s : gmap string entry) r2 h2 r3 h3 (K : string) e :
  K ≠ "" →
  s !! K = Some e →
  truthy (offer e) = true →
  expired TTL (now_gc h2) e = false →
  expired TTL (now_gc h3) e = false →
  SubmitAnswer (Some K) None r2 →
  ReadSession (Some K) r3 →
  let s2 := (Room_fetch r2 h2 s).2 in
  (Room_fetch r2 h2 s).1 = Return ok_view ∧
  s2 !! K = Some {| offer := offer e; answer := Some JUndefined; createdAt := createdAt e |} ∧
  (Room_fetch r3 h3 s2).1 = Return (session_view (offer e) JNull).
Proof.
  intros HK He Ho Hl2 Hl3 H2 H3 s2.
  assert (Hk2 : request_key r2 h2 = K).
  { eapply request_key_given; [apply H2 | done..]. }
  assert (Hk3 : request_key r3 h3 = K).
  { eapply request_key_given; [apply H3 | done..]. }
  assert (Hf : Room_fetch r2 h2 s =
               (Return ok_view, <[K := set_answer e JUndefined]> (gc (now_gc h2) s))).
  { rewrite (fetch_answer_eq _ _ _ _ _ H2). cbn zeta. rewrite Hk2.
    rewrite (gc_lookup_live _ _ _ _ He Hl2), Ho. done. }
  subst s2. rewrite Hf. simpl. split; [done |]. split.
  - apply lookup_insert_eq.
  - rewrite (fetch_get_eq _ _ _ _ H3). cbn zeta. rewrite Hk3.
    rewrite (gc_lookup_live _ _ _ (set_answer e JUndefined)); [done | |].
    + apply lookup_insert_eq.
    + by rewrite set_answer_live.
Qed.

Lemma malformed_answer_tolerated_witness :
  let s := {["k1" := fresh_entry sample_offer 1000]} in
  let s2 := (Room_fetch (post_answer (Some "k1") None) (host_at 2000) s).2 in
  (Room_fetch (post_answer (Some "k1") None) (host_at 2000) s).1 = Return ok_view ∧
  s2 !! "k1" = Some {| offer := sample_offer; answer := Some JUndefined; createdAt := 1000 |} ∧
  (Room_fetch (get_session (Some "k1")) (host_at 3000) s2).1
    = Return (session_view sample_offer JNull).
Proof.
  apply (malformed_answer_tolerated {["k1" := fresh_entry sample_offer 1000]}
           (post_answer (Some "k1") None) (host_at 2000)
           (get_session (Some "k1")) (host_at 3000)
           "k1" (fresh_entry sample_offer 1000)).
  - discriminate.
  - apply lookup_singleton_eq.
  - reflexivity.
  - reflexivity.
  - reflexivity.
  - repeat split; reflexivity.
  - repeat split; reflexivity.
Defined.

(** A body that parses to [null] is not covered by the [catch]: once the
    record is found, reading [body.answer] raises, before anything is
    assigned. *)
Lemma submit_answer_null_body (s : gmap string entry) req h k e :
  SubmitAnswer k (Some JNull) req →
  gc (now_gc h) s !! request_key req h = Some e →
  truthy (offer e) = true →
  Room_fetch req h s = (Throw "TypeError", gc (now_gc h) s).
Proof.
  intros H He Ho. rewrite (fetch_answer_eq _ _ _ _ _ H). cbn zeta.
  by rewrite He, Ho.
Qed.

(** ** Reading a session *)

(** C7, as stated, fails: the answer [false], once submitted and stored,
    is read back as [null]. *)
Lemma read_session_falsy_answer_as_null :
  let s1 := (Room_fetch (post_offer (Some "k1") (Some sample_offer)) (host_at 1000) ∅).2 in
  let r2 := post_answer (Some "k1") (Some (JObject [("answer", JBool false)])) in
  let s2 := (Room_fetch r2 (host_at 2000) s1).2 in
  (Room_fetch r2 (host_at 2000) s1).1 = Return ok_view ∧
  s2 !! "k1" = Some {| offer := sample_offer;
                       answer := Some (JVal (JBool false));
                       createdAt := 1000 |} ∧
  (Room_fetch (get_session (Some "k1")) (host_at 3000) s2).1
    = Return (session_view sample_offer JNull) ∧
  (Room_fetch (get_session (Some "k1")) (host_at 3000) s2).1
    ≠ Return (session_view sample_offer (JBool false)).
Proof. vm_compute. repeat split; discriminate. Qed.

(** C7, amended. For every record whose key survives the sweep,
    [ReadSession] returns the stored offer verbatim, and the stored answer
    verbatim when it is truthy; it reports the answer as [null] when none
    was submitted and also when the stored answer is [undefined] or a
    falsy value ([null], [false], a zero or NaN number, the empty
    string). *)
Theorem read_session_view (s : gmap string entry) req h (K : string) e :
  ReadSession (Some K) req →
  K ≠ "" →
  s !! K = Some e →
  expired TTL (now_gc h) e = false →
  Room_fetch req h s =
    (Return (session_view (offer e) (or_null (read_answer e))), gc (now_gc h) s) ∧
  (∀ A, answer e = Some (JVal A) → truthy A = true → or_null (read_answer e) = A) ∧
  (∀ A, answer e = Some (JVal A) → truthy A = false → or_null (read_answer e) = JNull) ∧
  (answer e = None ∨ answer e = Some JUndefined → or_null (read_answer e) = JNull).
Proof.
  intros H HK He Hl.
  assert (Hk : request_key req h = K).
  { eapply request_key_given; [apply H | done..]. }
  split; [| split; [| split]].
  - rewrite (fetch_get_eq _ _ _ _ H). cbn zeta.
    by rewrite Hk, (gc_lookup_live _ _ _ _ He Hl).
  - intros A HA Ht. unfold read_answer. rewrite HA. simpl. by rewrite Ht.
  - intros A HA Ht. unfold read_answer. rewrite HA. simpl. by rewrite Ht.
  - unfold read_answer. by intros [-> | ->].
Qed.

Lemma read_session_view_witness :
  let e := set_answer (fresh_entry sample_offer 1000) (JVal sample_answer) in
  Room_fetch (get_session (Some "k1")) (host_at 3000) {["k1" := e]} =
    (Return (session_view (offer e) (or_null (read_answer e))), gc 3000 {["k1" := e]}).
Proof.
  apply (read_session_view
           {["k1" := set_answer (fresh_entry sample_offer 1000) (JVal sample_answer)]}
           (get_session (Some "k1")) (host_at 3000) "k1"
           (set_answer (fresh_entry sample_offer 1000) (JVal sample_answer))).
  - repeat split; reflexivity.
  - discriminate.
  - apply lookup_singleton_eq.
  - reflexivity.
Defined.

(** ** Requests without a key *)

(** C10. When the URL has no [key] parameter, or an empty one, the handler
    uses the generated UUID as the key: [CreateOffer] stores the record
    under it and returns it; [SubmitAnswer] and [ReadSession] look it up
    and answer 404 whenever the map has no record under it (the request is
    not rejected for the missing key). *)
Theorem missing_key_uses_uuid (s : gmap string entry) req h :
  key_param req = None ∨ key_param req = Some "" →
  let g := gc (now_gc h) s in
  request_key req h = uuid h ∧
  (∀ v, CreateOffer (key_param req) (Some v) req → truthy v = true →
     Room_fetch req h s =
       (Return (key_view (uuid h)), <[uuid h := fresh_entry v (now_set h)]> g)) ∧
  (∀ p, SubmitAnswer (key_param req) p req → s !! uuid h = None →
     Room_fetch req h s = (Return no_offer, g) ∧ status no_offer = 404) ∧
  (ReadSession (key_param req) req → s !! uuid h = None →
     Room_fetch req h s = (Return not_found, g) ∧ status not_found = 404).
Proof.
  intros Hkey g. pose proof (request_key_generated req h Hkey) as Hk.
  split; [done |]. split; [| split].
  - intros v H Hv. rewrite (fetch_offer_eq _ _ _ _ _ H). cbn zeta.
    by rewrite Hv, Hk.
  - intros p H Hn. rewrite (fetch_answer_eq _ _ _ _ _ H). cbn zeta.
    by rewrite Hk, (gc_lookup_absent _ _ _ Hn).
  - intros H Hn. rewrite (fetch_get_eq _ _ _ _ H). cbn zeta.
    by rewrite Hk, (gc_lookup_absent _ _ _ Hn).
Qed.

Lemma missing_key_uses_uuid_witness :
  Room_fetch (get_session None) (host_at 1000) {["k1" := fresh_entry sample_offer 900]}
  = (Return not_found, gc 1000 {["k1" := fresh_entry sample_offer 900]}).
Proof.
  apply (missing_key_uses_uuid {["k1" := fresh_entry sample_offer 900]}
           (get_session None) (host_at 1000)).
  - left; reflexivity.
  - repeat split; reflexivity.
  - reflexivity.
Defined.

(** ** The invariant of a room *)

Lemma is_str_true a name : is_str a name = true ↔ a = Some name.
Proof.
  destruct a as [x |]; simpl; [| done].
  rewrite String.eqb_eq. split; [by intros -> | by intros [= ->]].
Qed.

(** What a request can leave under a key: what the sweep left there, a
    session it just created, or a swept session with its answer assigned. *)
Lemma fetch_state_cases req h (s : gmap string entry) k e' :
  (Room_fetch req h s).2 !! k = Some e' →
  gc (now_gc h) s !! k = Some e' ∨
  (k = request_key req h ∧
   ∃ v, CreateOffer (key_param req) (Some v) req ∧ truthy v = true ∧
        e' = fresh_entry v (now_set h)) ∨
  (k = request_key req h ∧
   ∃ e a, gc (now_gc h) s !! k = Some e ∧ truthy (offer e) = true ∧
          e' = set_answer e a).
Proof.
  unfold Room_fetch.
  destruct (String.eqb (method req) "POST" && is_str (action_of req) "offer") eqn:Hoffer.
  - apply andb_true_iff in Hoffer as [Hm Ha].
    apply String.eqb_eq in Hm. apply is_str_true in Ha.
    destruct (body req) as [v |] eqn:Hb; simpl; [| by left].
    destruct (truthy v) eqn:Hv; simpl; [| by left].
    destruct (decide (k = request_key req h)) as [-> | Hne].
    + rewrite lookup_insert_eq. intros [= <-]. right. left. split; [done |].
      exists v. by repeat split.
    + rewrite lookup_insert_ne by done. by left.
  - destruct (String.eqb (method req) "POST" && is_str (action_of req) "answer").
    + destruct (gc (now_gc h) s !! request_key req h) as [e |] eqn:He; [| by left].
      destruct (truthy (offer e)) eqn:Ho; simpl; [| by left].
      destruct (get_prop _ _) as [a |]; [| by left]. simpl.
      destruct (decide (k = request_key req h)) as [-> | Hne].
      * rewrite lookup_insert_eq. intros [= <-]. right. right. split; [done |].
        by exists e, a.
      * rewrite lookup_insert_ne by done. by left.
    + destruct (String.eqb (method req) "GET" && is_str (action_of req) "get");
        [| by left].
      destruct (gc (now_gc h) s !! request_key req h); by left.
Qed.

Lemma created_by_mono history history' k e :
  history ⊆ history' → created_by history k e → created_by history' k e.
Proof.
  intros Hsub (req & h & Hin & Hrest). exists req, h. split; [| done].
  by apply Hsub.
Qed.

Lemma session_inv_step history s ev :
  session_inv history s → session_inv (history ++ [ev]) (step s ev).
Proof.
  intros Hinv k e' Hk.
  assert (Hsub : history ⊆ history ++ [ev]) by set_solver.
  destruct ev as [req h | ttlSec now]; simpl in Hk.
  - apply fetch_state_cases in Hk
      as [Hg | [(-> & v & Hc & Hv & ->) | (-> & e & a & Hg & Ho & ->)]].
    + apply gc_lookup_inv in Hg. destruct (Hinv _ _ Hg) as [Ho Hc].
      split; [done |]. by eapply created_by_mono.
    + split; [done |]. exists req, h. simpl. repeat split; try apply Hc.
      set_solver.
    + apply gc_lookup_inv in Hg. destruct (Hinv _ _ Hg) as [_ Hc].
      split; [done |]. by eapply created_by_mono.
  - apply gc_ttl_lookup_Some in Hk as [Hk _]. destruct (Hinv _ _ Hk) as [Ho Hc].
    split; [done |]. by eapply created_by_mono.
Qed.

Lemma session_inv_foldl tr : ∀ history s,
  session_inv history s → session_inv (history ++ tr) (foldl step s tr).
Proof.
  induction tr as [| ev tr IH]; intros history s Hinv; simpl.
  - by rewrite app_nil_r.
  - replace (history ++ ev :: tr) with ((history ++ [ev]) ++ tr)
      by (by rewrite <- app_assoc).
    apply IH. by apply session_inv_step.
Qed.

Lemma session_inv_run history : session_inv history (run history).
Proof.
  apply (session_inv_foldl history [] ∅). intros k e Hk.
  by rewrite lookup_empty in Hk.
Qed.

(** C9. In every state a room reaches from its construction, through any
    sequence of requests and sweeps, every stored record has a truthy
    offer and the [createdAt] that the [CreateOffer] that stored it read
    from the clock; so, when [SubmitAnswer] finds a record, the test
    [!entry.offer] is false: its 404 always comes from the missing
    record. *)
Theorem room_invariant history :
  (∀ k e, run history !! k = Some e →
     truthy (offer e) = true ∧ created_by history k e) ∧
  (∀ req h key p, SubmitAnswer key p req →
     (∀ e, gc (now_gc h) (run history) !! request_key req h = Some e →
        negb (truthy (offer e)) = false) ∧
     ((Room_fetch req h (run history)).1 = Return no_offer →
        gc (now_gc h) (run history) !! request_key req h = None)).
Proof.
  split; [apply session_inv_run |].
  intros req h key p H.
  assert (Hguard : ∀ e, gc (now_gc h) (run history) !! request_key req h = Some e →
                        truthy (offer e) = true).
  { intros e He. apply gc_lookup_inv in He.
    by destruct (session_inv_run history _ _ He). }
  split.
  - intros e He. by rewrite (Hguard e He).
  - rewrite (fetch_answer_eq _ _ _ _ _ H). cbn zeta.
    destruct (gc (now_gc h) (run history) !! request_key req h) as [e |] eqn:He;
      [| done].
    rewrite (Hguard e eq_refl).
    destruct (get_prop _ _); simpl; discriminate.
Qed.

Lemma room_invariant_witness :
  let history :=
    [EvFetch (post_offer (Some "k1") (Some sample_offer)) (host_at 1000);
     EvFetch (post_answer (Some "k1") (Some (JObject [("answer", sample_answer)])))
       (host_at 2000);
     EvGc 600 3000] in
  let e := set_answer (fresh_entry sample_offer 1000) (JVal sample_answer) in
  run history !! "k1" = Some e ∧
  truthy (offer e) = true ∧ created_by history "k1" e.
Proof.
  intros history e.
  assert (Hk : run history !! "k1" = Some e) by (vm_compute; reflexivity).
  split; [exact Hk |].
  exact (proj1 (room_invariant history) "k1" e Hk).
Defined.

(** ** Rooms *)

Lemma routed_not_health req slug :
  routed_to req slug → String.eqb (pathname req) "/health" = false.
Proof.
  intros (_ & action & rest & Hparts).
  destruct (String.eqb (pathname req) "/health") eqn:Hp; [| done].
  apply String.eqb_eq in Hp. rewrite Hp in Hparts. discriminate.
Qed.

Lemma fetch_routed req h (rooms : gmap string (gmap string entry)) slug :
  routed_to req slug →
  fetch req h rooms =
    (match (Room_fetch req h (room_of rooms slug)).1 with
     | Return resp => Return (withCORS resp)
     | Throw e => Throw e
     end,
     <[slug := (Room_fetch req h (room_of rooms slug)).2]> rooms).
Proof.
  intros Hr. pose proof (routed_not_health _ _ Hr) as Hh.
  destruct Hr as (Hm & action & rest & Hparts).
  unfold fetch. rewrite Hh, Hparts.
  destruct (String.eqb (method req) "OPTIONS") eqn:Ho.
  { by apply String.eqb_eq in Ho. }
  simpl. by destruct (Room_fetch req h (room_of rooms slug)).
Qed.

(** A request changes at most the room its path names. *)
Lemma fetch_other_room req h (rooms : gmap string (gmap string entry)) slug :
  path_parts (pathname req) !! 1%nat ≠ Some slug →
  (fetch req h rooms).2 !! slug = rooms !! slug.
Proof.
  intros Hne. unfold fetch.
  destruct (String.eqb (method req) "OPTIONS"); [done |].
  destruct (String.eqb (pathname req) "/health"); [done |].
  destruct (path_parts (pathname req)) as [| p0 [| slug' [| action rest]]]; try done.
  destruct (String.eqb p0 "room"); [| done].
  destruct (Room_fetch req h (room_of rooms slug')) as [out sessions]. simpl.
  apply lookup_insert_ne. intros ->. by apply Hne.
Qed.

(** C8. Isolation across rooms: a request addressed to room [alpha],
    whatever its operation, leaves the session map of every other room
    [beta] unchanged; so [ReadSession] for [K] in [beta] has the outcome it
    would have had without that request, and is not found unless [beta]
    itself holds a record for [K]. *)
Theorem rooms_isolated (rooms : gmap string (gmap string entry)) r1 h1 r2 h2
    (alpha beta K : string) :
  alpha ≠ beta →
  routed_to r1 alpha →
  routed_to r2 beta →
  ReadSession (Some K) r2 →
  K ≠ "" →
  let rooms1 := (fetch r1 h1 rooms).2 in
  rooms1 !! beta = rooms !! beta ∧
  room_of rooms1 beta = room_of rooms beta ∧
  (fetch r2 h2 rooms1).1 = (fetch r2 h2 rooms).1 ∧
  (room_of rooms beta !! K = None →
     (fetch r2 h2 rooms1).1 = Return (withCORS not_found)).
Proof.
  intros Hne Hr1 Hr2 H2 HK rooms1.
  assert (Hsame : rooms1 !! beta = rooms !! beta).
  { apply fetch_other_room. destruct Hr1 as (_ & action & rest & ->). simpl.
    intros [= ->]. by apply Hne. }
  assert (Hroom : room_of rooms1 beta = room_of rooms beta).
  { unfold room_of. by rewrite Hsame. }
  split; [done |]. split; [done |].
  rewrite !(fetch_routed _ _ _ _ Hr2). simpl. rewrite Hroom.
  split; [done |]. intros Hn.
  rewrite (fetch_get_eq _ _ _ _ H2). cbn zeta.
  rewrite (request_key_given r2 h2 (Some K) K); [| apply H2 | done..].
  by rewrite (gc_lookup_absent _ _ _ Hn).
Qed.

Lemma rooms_isolated_witness :
  let rooms1 := (fetch (post_offer (Some "k1") (Some sample_offer)) (host_at 1000) ∅).2 in
  room_of rooms1 "alpha" !! "k1" = Some (fresh_entry sample_offer 1000) ∧
  (fetch (get_session_beta (Some "k1")) (host_at 2000) rooms1).1
    = Return (withCORS not_found).
Proof.
  split; [vm_compute; reflexivity |].
  apply (rooms_isolated ∅ (post_offer (Some "k1") (Some sample_offer)) (host_at 1000)
           (get_session_beta (Some "k1")) (host_at 2000) "alpha" "beta" "k1").
  - discriminate.
  - split; [discriminate | by exists "offer", []].
  - split; [discriminate | by exists "get", []].
  - repeat split; reflexivity.
  - discriminate.
  - reflexivity.
Defined.

(** * Further properties of the worker *)

(** ** Headers *)

Lemma hget_hset_eq name value h : hget name (hset name value h) = Some value.
Proof.
  induction h as [| [k v] rest IH]; simpl.
  - by rewrite String.eqb_refl.
  - destruct (String.eqb k name) eqn:Hk; simpl.
    + by rewrite String.eqb_refl.
    + by rewrite Hk.
Qed.

Lemma hget_hset_ne name name' value h :
  name ≠ name' → hget name' (hset name value h) = hget name' h.
Proof.
  intros Hne. induction h as [| [k v] rest IH]; simpl.
  - by apply String.eqb_neq in Hne as ->.
  - destruct (String.eqb k name) eqn:Hk; simpl.
    + apply String.eqb_eq in Hk as ->. by apply String.eqb_neq in Hne as ->.
    + by rewrite IH.
Qed.

Lemma hset_same name value h : hget name h = Some value → hset name value h = h.
Proof.
  induction h as [| [k v] rest IH]; simpl; [done |].
  destruct (String.eqb k name) eqn:Hk.
  - apply String.eqb_eq in Hk as ->. by intros [= ->].
  - intros Hg. by rewrite IH.
Qed.

Lemma withCORS_has_cors r : has_cors (withCORS r).
Proof.
  intros name value Hin. unfold cors_headers in Hin.
  unfold withCORS. cbn [headers].
  repeat (apply elem_of_cons in Hin as [[= -> ->] | Hin]);
    [ | | | | by apply elem_of_nil in Hin ].
  - rewrite !hget_hset_ne by done. apply hget_hset_eq.
  - rewrite !hget_hset_ne by done. apply hget_hset_eq.
  - rewrite !hget_hset_ne by done. apply hget_hset_eq.
  - apply hget_hset_eq.
Qed.

(** X1. [withCORS] changes neither the status nor the body of a response,
    a JSON response keeps its content type under it, and applying it twice
    is applying it once. *)
Theorem withCORS_preserves r :
  status (withCORS r) = status r ∧
  content (withCORS r) = content r ∧
  (∀ obj st, hget "content-type" (headers (withCORS (json_status obj st)))
             = Some "application/json") ∧
  withCORS (withCORS r) = withCORS r.
Proof.
  split; [done |]. split; [done |]. split; [done |].
  pose proof (withCORS_has_cors r) as Hc.
  assert (Hin : ∀ nv, nv ∈ cors_headers → hget nv.1 (headers (withCORS r)) = Some nv.2).
  { intros [name value] Hnv. by apply Hc. }
  unfold withCORS at 1. cbn [status content].
  rewrite (hset_same "Access-Control-Allow-Origin" "*");
    [| apply (Hin (_, _)); unfold cors_headers; rewrite !elem_of_cons; tauto].
  rewrite (hset_same "Access-Control-Allow-Methods" "GET,POST,OPTIONS");
    [| apply (Hin (_, _)); unfold cors_headers; rewrite !elem_of_cons; tauto].
  rewrite (hset_same "Access-Control-Allow-Headers" "Content-Type");
    [| apply (Hin (_, _)); unfold cors_headers; rewrite !elem_of_cons; tauto].
  rewrite (hset_same "Cache-Control" "no-store");
    [| apply (Hin (_, _)); unfold cors_headers; rewrite !elem_of_cons; tauto].
  by destruct (withCORS r).
Qed.

(** X2. Every response the worker returns, whatever the request, carries
    the four CORS headers with the values of [withCORS]; and its status is
    200, 204, 400 or 404. *)
Theorem fetch_response_cors req h (rooms : gmap string (gmap string entry)) r :
  (fetch req h rooms).1 = Return r →
  has_cors r ∧ status r ∈ [200; 204; 400; 404].
Proof.
  unfold fetch.
  destruct (String.eqb (method req) "OPTIONS").
  { intros [= <-]. split; [| set_solver].
    intros name value Hin. unfold cors_headers in Hin.
    repeat (apply elem_of_cons in Hin as [[= -> ->] | Hin]); try done.
    by apply elem_of_nil in Hin. }
  destruct (String.eqb (pathname req) "/health").
  { intros [= <-]. split; [apply withCORS_has_cors | set_solver]. }
  assert (Hnf : ∀ r', Return (withCORS not_found) = Return r' →
                      has_cors r' ∧ status r' ∈ [200; 204; 400; 404]).
  { intros r' [= <-]. split; [apply withCORS_has_cors | set_solver]. }
  destruct (path_parts (pathname req)) as [| p0 [| slug [| action rest]]];
    try (simpl; by apply Hnf).
  destruct (String.eqb p0 "room"); [| simpl; by apply Hnf].
  destruct (Room_fetch req h (room_of rooms slug)) as [out sessions] eqn:Hroom.
  simpl. destruct out as [resp |]; [| done]. intros [= <-].
  split; [apply withCORS_has_cors |].
  assert (Hout : (Room_fetch req h (room_of rooms slug)).1 = Return resp)
    by by rewrite Hroom.
  clear Hroom. unfold Room_fetch in Hout. cbn [status withCORS].
  repeat match type of Hout with
         | context [if ?b then _ else _] => destruct b
         | context [match ?o with Some _ => _ | None => _ end] => destruct o
         end;
    simpl in Hout; try discriminate; injection Hout as <-; simpl;
    rewrite !elem_of_cons; tauto.
Qed.

Lemma fetch_response_cors_witness :
  has_cors (withCORS not_found) ∧ status (withCORS not_found) ∈ [200; 204; 400; 404].
Proof.
  apply (fetch_response_cors (get_session_beta (Some "k1")) (host_at 1000) ∅).
  vm_compute. reflexivity.
Defined.

(** ** Paths *)

Lemma append_cons c s t : String c s +:+ t = String c (s +:+ t).
Proof. reflexivity. Qed.

Lemma append_empty_l t : "" +:+ t = t.
Proof. reflexivity. Qed.

Lemma append_snoc cur c s : (cur +:+ String c "") +:+ s = cur +:+ String c s.
Proof.
  induction cur as [| a cur IH]; [reflexivity |].
  rewrite !append_cons. by f_equal.
Qed.

Lemma append_empty_r s : s +:+ "" = s.
Proof.
  induction s as [| a s IH]; [reflexivity |]. rewrite append_cons. by f_equal.
Qed.

Lemma no_slash_snoc cur c :
  no_slash cur = true → Ascii.eqb c "/"%char = false →
  no_slash (cur +:+ String c "") = true.
Proof.
  intros Hcur Hc. induction cur as [| a cur IH].
  - rewrite append_empty_l. simpl. by rewrite Hc.
  - rewrite append_cons. simpl in *.
    apply andb_true_iff in Hcur as [Ha Hcur]. by rewrite Ha, IH.
Qed.

Lemma split_slash_segment s : ∀ cur rest,
  no_slash s = true →
  split_slash cur (s +:+ String "/" rest) = (cur +:+ s) :: split_slash "" rest.
Proof.
  induction s as [| c s IH]; intros cur rest Hs.
  - rewrite append_empty_l, append_empty_r. simpl. done.
  - rewrite append_cons. simpl in Hs |- *.
    apply andb_true_iff in Hs as [Hc Hs]. apply negb_true_iff in Hc.
    rewrite Hc, IH by done. by rewrite append_snoc.
Qed.

Lemma split_slash_last s : ∀ cur,
  no_slash s = true → split_slash cur s = [cur +:+ s].
Proof.
  induction s as [| c s IH]; intros cur Hs; simpl in Hs |- *.
  - by rewrite append_empty_r.
  - apply andb_true_iff in Hs as [Hc Hs]. apply negb_true_iff in Hc.
    rewrite Hc, IH by done. by rewrite append_snoc.
Qed.

Lemma split_slash_no_slash s : ∀ cur x,
  no_slash cur = true → x ∈ split_slash cur s → no_slash x = true.
Proof.
  induction s as [| c s IH]; intros cur x Hcur Hx; simpl in Hx.
  - apply list_elem_of_singleton in Hx. by subst.
  - destruct (Ascii.eqb c "/"%char) eqn:Hc.
    + apply elem_of_cons in Hx as [-> | Hx]; [done |]. by apply (IH "").
    + apply (IH (cur +:+ String c "")); [| done]. by apply no_slash_snoc.
Qed.

Lemma truthy_string_true s : truthy_string s = true ↔ s ≠ "".
Proof. by destruct s. Qed.

(** X3. The path [/room/slug/action], for a slug and an action that are
    non-empty and without a slash, splits into exactly
    [["room"; slug; action]]: the router finds the slug and the room the
    action that the path was built from. *)
Theorem path_parts_room_path slug action :
  slug ≠ "" → no_slash slug = true →
  action ≠ "" → no_slash action = true →
  path_parts (room_path slug action) = ["room"; slug; action].
Proof.
  intros Hs Hns Ha Hna. unfold path_parts, room_path.
  change ("/room/" +:+ slug +:+ "/" +:+ action)
    with (String "/" ("room" +:+ String "/" (slug +:+ String "/" action))).
  cbn [split_slash]. change (Ascii.eqb "/" "/") with true. cbn iota.
  rewrite (split_slash_segment "room" "" _ eq_refl).
  rewrite (split_slash_segment slug "" _ Hns).
  rewrite (split_slash_last action "" Hna). rewrite !append_empty_l.
  apply truthy_string_true in Hs. apply truthy_string_true in Ha.
  simpl. by rewrite Hs, Ha.
Qed.

Lemma path_parts_room_path_witness :
  path_parts (room_path "alpha" "offer") = ["room"; "alpha"; "offer"].
Proof. apply path_parts_room_path; (discriminate || reflexivity). Defined.

Lemma path_parts_elem p x : x ∈ path_parts p → x ≠ "" ∧ no_slash x = true.
Proof.
  intros Hx. unfold path_parts in Hx.
  apply list_elem_of_In, filter_In in Hx as [Hx Ht].
  split; [by apply truthy_string_true |].
  apply (split_slash_no_slash p ""); [done |]. by apply list_elem_of_In.
Qed.

(** X4. No part of a path is empty or contains a slash; so the name of
    the room a request is forwarded to is a non-empty string without a
    slash. *)
Theorem routed_slug_wf req slug :
  routed_to req slug →
  slug ≠ "" ∧ no_slash slug = true ∧
  (∀ x, x ∈ path_parts (pathname req) → x ≠ "" ∧ no_slash x = true).
Proof.
  intros (_ & action & rest & Heq).
  assert (Hslug : slug ∈ path_parts (pathname req)).
  { rewrite Heq. apply elem_of_cons. right. apply elem_of_cons. by left. }
  destruct (path_parts_elem _ _ Hslug) as [Hne Hns].
  split; [done |]. split; [done |]. intros x. apply path_parts_elem.
Qed.

Lemma routed_slug_wf_witness : "alpha" ≠ "" ∧ no_slash "alpha" = true.
Proof.
  destruct (routed_slug_wf (post_offer None (Some sample_offer)) "alpha")
    as (Hne & Hns & _).
  - split; [discriminate | by exists "offer", []].
  - by split.
Defined.

(** ** The router *)

(** X5. A request that is not forwarded to a room (a preflight, the health
    check, any other path) changes no room and constructs none; its
    response is the preflight response for [OPTIONS], else [ok] for the
    path [/health], else the 404. *)
Theorem fetch_unrouted req h (rooms : gmap string (gmap string entry)) :
  (∀ slug, ¬ routed_to req slug) →
  (fetch req h rooms).2 = rooms ∧
  (fetch req h rooms).1 =
    Return (if String.eqb (method req) "OPTIONS" then cors_preflight
            else if String.eqb (pathname req) "/health" then withCORS health_ok
            else withCORS not_found).
Proof.
  intros Hnot. unfold fetch.
  destruct (String.eqb (method req) "OPTIONS") eqn:Hm; [done |].
  destruct (String.eqb (pathname req) "/health"); [done |].
  destruct (path_parts (pathname req)) as [| p0 [| slug [| action rest]]] eqn:Hp;
    try done.
  destruct (String.eqb p0 "room") eqn:H0; [| done].
  exfalso. apply (Hnot slug). apply String.eqb_eq in H0 as ->.
  split; [| by exists action, rest].
  intros Heq. by rewrite Heq in Hm.
Qed.

Lemma fetch_unrouted_witness :
  (fetch (mkRequest "GET" "/room/alpha" None None) (host_at 1000) ∅).2 = ∅ ∧
  (fetch (mkRequest "GET" "/room/alpha" None None) (host_at 1000) ∅).1
    = Return (withCORS not_found).
Proof.
  apply (fetch_unrouted (mkRequest "GET" "/room/alpha" None None) (host_at 1000) ∅).
  intros slug (_ & action & rest & Hparts). vm_compute in Hparts. discriminate.
Defined.

Lemma gc_empty now : gc now ∅ = ∅.
Proof. apply map_filter_empty. Qed.

(** X6. The first request to a room finds the empty map of the
    constructor: [SubmitAnswer] and [ReadSession] in a room that was never
    used are answered 404, and leave that room registered with an empty
    map. *)
Theorem fetch_first_use req h (rooms : gmap string (gmap string entry)) slug :
  routed_to req slug →
  rooms !! slug = None →
  (∀ key p, SubmitAnswer key p req →
     fetch req h rooms = (Return (withCORS no_offer), <[slug := ∅]> rooms)) ∧
  (∀ key, ReadSession key req →
     fetch req h rooms = (Return (withCORS not_found), <[slug := ∅]> rooms)).
Proof.
  intros Hr Hnone. rewrite (fetch_routed _ _ _ _ Hr).
  unfold room_of. rewrite Hnone. simpl. split.
  - intros key p H. rewrite (fetch_answer_eq _ _ _ _ _ H). cbn zeta.
    by rewrite gc_empty, lookup_empty.
  - intros key H. rewrite (fetch_get_eq _ _ _ _ H). cbn zeta.
    by rewrite gc_empty, lookup_empty.
Qed.

Lemma fetch_first_use_witness :
  fetch (get_session_beta (Some "k1")) (host_at 1000) ∅
  = (Return (withCORS not_found), <["beta" := ∅]> ∅).
Proof.
  refine (proj2 (fetch_first_use (get_session_beta (Some "k1")) (host_at 1000)
                   ∅ "beta" _ _) (Some "k1") _).
  - split; [discriminate | by exists "get", []].
  - reflexivity.
  - repeat split; reflexivity.
Defined.


Lemma fetch_answer_stores req h (s : gmap string entry) k p e a :
  SubmitAnswer k p req →
  s !! request_key req h = Some e →
  expired TTL (now_gc h) e = false →
  truthy (offer e) = true →
  get_prop (default (JObject []) p) "answer" = Some a →
  Room_fetch req h s =
    (Return ok_view, <[request_key req h := set_answer e a]> (gc (now_gc h) s)).
Proof.
  intros H He Hl Ho Ha. rewrite (fetch_answer_eq _ _ _ _ _ H). cbn zeta.
  by rewrite (gc_lookup_live _ _ _ _ He Hl), Ho, Ha.
Qed.

Lemma fetch_get_reads req h (s : gmap string entry) k e :
  ReadSession k req →
  s !! request_key req h = Some e →
  expired TTL (now_gc h) e = false →
  Room_fetch req h s =
    (Return (session_view (offer e) (or_null (read_answer e))), gc (now_gc h) s).
Proof.
  intros H He Hl. rewrite (fetch_get_eq _ _ _ _ H). cbn zeta.
  by rewrite (gc_lookup_live _ _ _ _ He Hl).
Qed.




(** ** What a request does to the map of its room *)

(** The map a request leaves is the swept one, possibly with the record
    under the key of the request replaced. *)
Lemma fetch_state_shape req h (s : gmap string entry) :
  (Room_fetch req h s).2 = gc (now_gc h) s ∨
  ∃ e, (Room_fetch req h s).2 = <[request_key req h := e]> (gc (now_gc h) s).
Proof.
  unfold Room_fetch.
  repeat match goal with
         | |- context [if ?b then _ else _] => destruct b
         | |- context [match ?o with Some _ => _ | None => _ end] => destruct o
         end; simpl; eauto.
Qed.

(** X8. A request touches at most the record under its own key: every
    other key holds what the sweep left.  No request removes a session
    that has not expired.  And a key that held nothing can hold a record
    afterwards only by a [CreateOffer] with a truthy payload for that
    key. *)
Theorem room_fetch_frame req h (s : gmap string entry) :
  (∀ j, j ≠ request_key req h →
     (Room_fetch req h s).2 !! j = gc (now_gc h) s !! j) ∧
  (∀ k e, s !! k = Some e → expired TTL (now_gc h) e = false →
     is_Some ((Room_fetch req h s).2 !! k)) ∧
  (∀ k e', (Room_fetch req h s).2 !! k = Some e' → s !! k = None →
     k = request_key req h ∧
     ∃ v, CreateOffer (key_param req) (Some v) req ∧ truthy v = true ∧
          e' = fresh_entry v (now_set h)).
Proof.
  assert (Hother : ∀ j, j ≠ request_key req h →
            (Room_fetch req h s).2 !! j = gc (now_gc h) s !! j).
  { intros j Hj. destruct (fetch_state_shape req h s) as [-> | [e ->]]; [done |].
    by rewrite lookup_insert_ne. }
  split; [done |]. split.
  - intros k e He Hl. pose proof (gc_lookup_live _ _ _ _ He Hl) as Hg.
    destruct (decide (k = request_key req h)) as [-> | Hne].
    + destruct (fetch_state_shape req h s) as [-> | [e0 ->]]; [by eexists |].
      rewrite lookup_insert_eq. by eexists.
    + rewrite (Hother k Hne). by eexists.
  - intros k e' Hk Hnone.
    apply fetch_state_cases in Hk as [Hg | [Hnew | (_ & e & a & Hg & _)]].
    + apply gc_lookup_inv in Hg. congruence.
    + done.
    + apply gc_lookup_inv in Hg. congruence.
Qed.

(** X9. After any request, every record of the room had not expired at
    the sweep of that request, except for a record the request itself
    has just stored. *)
Theorem room_fetch_leaves_live req h (s : gmap string entry) k e :
  (Room_fetch req h s).2 !! k = Some e →
  expired TTL (now_gc h) e = false ∨
  (k = request_key req h ∧ createdAt e = now_set h).
Proof.
  intros Hk.
  apply fetch_state_cases in Hk
    as [Hg | [(-> & v & _ & _ & ->) | (_ & e0 & a & Hg & _ & ->)]].
  - left. unfold gc in Hg. by apply gc_ttl_lookup_Some in Hg as [_ ?].
  - by right.
  - left. unfold gc in Hg. by apply gc_ttl_lookup_Some in Hg as [_ ?].
Qed.

Lemma room_fetch_leaves_live_witness :
  expired TTL 700000 (fresh_entry sample_offer 100000) = false ∨
  ("b" = request_key (get_session (Some "a")) (host_at 700000) ∧
   createdAt (fresh_entry sample_offer 100000) = now_set (host_at 700000)).
Proof.
  apply (room_fetch_leaves_live (get_session (Some "a")) (host_at 700000)
           (<["a" := fresh_entry sample_offer 1]>
              (<["b" := fresh_entry sample_offer 100000]> ∅))).
  vm_compute. reflexivity.
Defined.

(** X10. [Room.fetch] raises in one case only: a [POST] to [answer] whose
    body parses to [null], when the key holds (after the sweep) a record
    with an offer.  The error is the [TypeError] of reading
    [body.answer], and the map is left as the sweep left it. *)
Theorem room_fetch_throws_iff req h (s : gmap string entry) msg :
  (Room_fetch req h s).1 = Throw msg ↔
  msg = "TypeError" ∧
  SubmitAnswer (key_param req) (Some JNull) req ∧
  (∃ e, gc (now_gc h) s !! request_key req h = Some e ∧ truthy (offer e) = true) ∧
  (Room_fetch req h s).2 = gc (now_gc h) s.
Proof.
  split.
  - unfold Room_fetch.
    destruct (String.eqb (method req) "POST" && is_str (action_of req) "offer").
    { destruct (negb _); discriminate. }
    destruct (String.eqb (method req) "POST" && is_str (action_of req) "answer")
      eqn:Hans.
    + apply andb_true_iff in Hans as [Hm Ha].
      apply String.eqb_eq in Hm. apply is_str_true in Ha.
      destruct (gc (now_gc h) s !! request_key req h) as [e |] eqn:He;
        [| discriminate].
      destruct (truthy (offer e)) eqn:Ho; simpl; [| discriminate].
      destruct (body req) as [[] |] eqn:Hb; simpl; try discriminate.
      intros [= <-]. repeat split; try done. by exists e.
    + destruct (String.eqb (method req) "GET" && is_str (action_of req) "get");
        [| discriminate].
      destruct (gc (now_gc h) s !! request_key req h); discriminate.
  - intros (-> & H & (e & He & Ho) & _).
    rewrite (fetch_answer_eq _ _ _ _ _ H). cbn zeta. by rewrite He, Ho.
Qed.

(** X11. A request whose method and action match none of the three
    operations (a [GET] of [offer], a [POST] to [get], any other method
    or action) is answered with the plain 404, after the sweep. *)
Theorem room_fetch_no_operation req h (s : gmap string entry) :
  (method req = "POST" → action_of req ≠ Some "offer" ∧ action_of req ≠ Some "answer") →
  (method req = "GET" → action_of req ≠ Some "get") →
  Room_fetch req h s = (Return not_found, gc (now_gc h) s).
Proof.
  intros Hpost Hget. unfold Room_fetch.
  assert (Hb : ∀ m a, (method req = m → action_of req ≠ Some a) →
                      String.eqb (method req) m && is_str (action_of req) a = false).
  { intros m a Hma. apply andb_false_iff.
    destruct (String.eqb (method req) m) eqn:Hm; [right | by left].
    apply String.eqb_eq in Hm. specialize (Hma Hm).
    destruct (is_str (action_of req) a) eqn:Ha; [| done].
    by apply is_str_true in Ha. }
  rewrite (Hb "POST" "offer"), (Hb "POST" "answer"), (Hb "GET" "get");
    [done | done | intros Hm; by destruct (Hpost Hm) | intros Hm; by destruct (Hpost Hm)].
Qed.

Lemma room_fetch_no_operation_witness :
  Room_fetch (mkRequest "GET" "/room/alpha/offer" (Some "k1") (Some sample_offer))
    (host_at 1000) ∅
  = (Return not_found, gc 1000 ∅).
Proof.
  apply (room_fetch_no_operation
           (mkRequest "GET" "/room/alpha/offer" (Some "k1") (Some sample_offer))
           (host_at 1000) ∅).
  - discriminate.
  - intros _. discriminate.
Defined.

(** ** Sweeps *)

Lemma expired_mono ttlSec now now' e :
  now ≤ now' → expired ttlSec now' e = false → expired ttlSec now e = false.
Proof. rewrite !expired_false. lia. Qed.

(** X12. A sweep only removes records, leaving the others as they were;
    and, for a clock that has not gone back, a later sweep subsumes an
    earlier one: sweeping at [now] and then at [now'] leaves what one
    sweep at [now'] leaves. *)
Theorem gc_later_subsumes ttlSec now now' (s : gmap string entry) :
  now ≤ now' →
  gc_ttl ttlSec now s ⊆ s ∧
  gc_ttl ttlSec now' s ⊆ gc_ttl ttlSec now s ∧
  gc_ttl ttlSec now' (gc_ttl ttlSec now s) = gc_ttl ttlSec now' s.
Proof.
  intros Hle. split; [apply map_filter_subseteq |]. split.
  - apply map_subseteq_spec. intros k e. rewrite !gc_ttl_lookup_Some.
    intros [He Hx]. split; [done |]. by eapply expired_mono.
  - apply map_eq. intros k. apply option_eq. intros e.
    rewrite !gc_ttl_lookup_Some. split.
    + by intros [[He _] Hx].
    + intros [He Hx]. repeat split; try done. by eapply expired_mono.
Qed.

Lemma gc_later_subsumes_witness :
  let s := <["a" := fresh_entry sample_offer 1]>
             (<["b" := fresh_entry sample_offer 100000]> ∅) in
  gc_ttl 600 700000 (gc_ttl 600 650000 s) = gc_ttl 600 700000 s.
Proof.
  apply (gc_later_subsumes 600 650000 700000). lia.
Defined.

(** ** Answers *)

(** X13. Submitting an answer does not prolong a session: after a
    successful [SubmitAnswer], whenever it arrived, the record expires when
    the offer would have, its age still counted from the creation of the
    offer. *)
Theorem answer_keeps_expiry (s : gmap string entry) r2 h2 r3 h3 (K : string) p e a :
  K ≠ "" →
  SubmitAnswer (Some K) p r2 →
  s !! K = Some e →
  expired TTL (now_gc h2) e = false →
  truthy (offer e) = true →
  get_prop (default (JObject []) p) "answer" = Some a →
  ReadSession (Some K) r3 →
  let s2 := (Room_fetch r2 h2 s).2 in
  (expired TTL (now_gc h3) e = true → (Room_fetch r3 h3 s2).1 = Return not_found) ∧
  (expired TTL (now_gc h3) e = false →
     (Room_fetch r3 h3 s2).1 = Return (session_view (offer e) (or_null a))).
Proof.
  intros HK H2 He Hl2 Ho Ha H3 s2.
  assert (Hk2 : request_key r2 h2 = K).
  { eapply request_key_given; [apply H2 | done..]. }
  assert (Hk3 : request_key r3 h3 = K).
  { eapply request_key_given; [apply H3 | done..]. }
  assert (Hs2 : s2 !! K = Some (set_answer e a)).
  { subst s2. rewrite (fetch_answer_stores r2 h2 s _ _ e a H2); try done.
    - rewrite Hk2. apply lookup_insert_eq.
    - by rewrite Hk2. }
  split; intros Hx.
  - rewrite (fetch_get_eq _ _ _ _ H3). cbn zeta.
    by rewrite Hk3, (gc_lookup_expired _ _ _ _ Hs2).
  - rewrite (fetch_get_reads r3 h3 s2 _ (set_answer e a) H3); try done.
    by rewrite Hk3.
Qed.

Lemma answer_keeps_expiry_witness :
  let s := {["k1" := fresh_entry sample_offer 1000]} in
  let r2 := post_answer (Some "k1") (Some (JObject [("answer", sample_answer)])) in
  (Room_fetch (get_session (Some "k1")) (host_at 601001)
     (Room_fetch r2 (host_at 600000) s).2).1 = Return not_found.
Proof.
  refine (proj1 (answer_keeps_expiry {["k1" := fresh_entry sample_offer 1000]}
                   (post_answer (Some "k1") (Some (JObject [("answer", sample_answer)])))
                   (host_at 600000) (get_session (Some "k1")) (host_at 601001)
                   "k1" (Some (JObject [("answer", sample_answer)]))
                   (fresh_entry sample_offer 1000) (JVal sample_answer)
                   _ _ _ _ _ _ _) _).
  - discriminate.
  - repeat split; reflexivity.
  - apply lookup_singleton_eq.
  - reflexivity.
  - reflexivity.
  - reflexivity.
  - repeat split; reflexivity.
  - reflexivity.
Defined.

(** X14. The last answer wins: a second [SubmitAnswer] for the same key
    is accepted like the first and replaces the stored answer, the offer
    and [createdAt] staying those of the record. *)
Theorem answer_last_write_wins (s : gmap string entry) r2 h2 r3 h3 (K : string)
    p2 p3 e a2 a3 :
  K ≠ "" →
  s !! K = Some e →
  truthy (offer e) = true →
  expired TTL (now_gc h2) e = false →
  expired TTL (now_gc h3) e = false →
  SubmitAnswer (Some K) p2 r2 →
  get_prop (default (JObject []) p2) "answer" = Some a2 →
  SubmitAnswer (Some K) p3 r3 →
  get_prop (default (JObject []) p3) "answer" = Some a3 →
  let s2 := (Room_fetch r2 h2 s).2 in
  (Room_fetch r2 h2 s).1 = Return ok_view ∧
  (Room_fetch r3 h3 s2).1 = Return ok_view ∧
  (Room_fetch r3 h3 s2).2 !! K =
    Some {| offer := offer e; answer := Some a3; createdAt := createdAt e |}.
Proof.
  intros HK He Ho Hl2 Hl3 H2 Ha2 H3 Ha3 s2.
  assert (Hk2 : request_key r2 h2 = K).
  { eapply request_key_given; [apply H2 | done..]. }
  assert (Hk3 : request_key r3 h3 = K).
  { eapply request_key_given; [apply H3 | done..]. }
  assert (R2 : Room_fetch r2 h2 s
               = (Return ok_view, <[K := set_answer e a2]> (gc (now_gc h2) s))).
  { rewrite (fetch_answer_stores r2 h2 s _ _ e a2 H2); try done; by rewrite Hk2. }
  subst s2. rewrite R2. cbn [fst snd]. split; [done |].
  rewrite (fetch_answer_stores r3 h3 _ _ _ (set_answer e a2) a3 H3); try done.
  - rewrite Hk3. cbn [fst snd]. split; [done |]. by rewrite lookup_insert_eq.
  - rewrite Hk3. apply lookup_insert_eq.
Qed.

Lemma answer_last_write_wins_witness :
  let s := {["k1" := fresh_entry sample_offer 1000]} in
  let r2 := post_answer (Some "k1") (Some (JObject [("answer", JString "first")])) in
  let r3 := post_answer (Some "k1") (Some (JObject [("answer", JString "second")])) in
  (Room_fetch r2 (host_at 2000) s).1 = Return ok_view ∧
  (Room_fetch r3 (host_at 3000) (Room_fetch r2 (host_at 2000) s).2).1 = Return ok_view ∧
  (Room_fetch r3 (host_at 3000) (Room_fetch r2 (host_at 2000) s).2).2 !! "k1" =
    Some {| offer := sample_offer; answer := Some (JVal (JString "second"));
            createdAt := 1000 |}.
Proof.
  apply (answer_last_write_wins {["k1" := fresh_entry sample_offer 1000]}
           (post_answer (Some "k1") (Some (JObject [("answer", JString "first")])))
           (host_at 2000)
           (post_answer (Some "k1") (Some (JObject [("answer", JString "second")])))
           (host_at 3000) "k1"
           (Some (JObject [("answer", JString "first")]))
           (Some (JObject [("answer", JString "second")]))
           (fresh_entry sample_offer 1000) (JVal (JString "first"))
           (JVal (JString "second"))).
  - discriminate.
  - apply lookup_singleton_eq.
  - reflexivity.
  - reflexivity.
  - reflexivity.
  - repeat split; reflexivity.
  - reflexivity.
  - repeat split; reflexivity.
  - reflexivity.
Defined.

(** ** Reachable rooms *)

Lemma request_key_nonempty req h : uuid h ≠ "" → request_key req h ≠ "".
Proof.
  intros Hu. unfold request_key.
  destruct (key_param req) as [[| c k] |]; simpl; done.
Qed.

(** X15. No session is ever stored under the empty key: an empty [key]
    parameter is replaced by the generated UUID, so, the UUIDs being
    non-empty, the map of a room has no record under [""] after any
    history. *)
Theorem keys_nonempty history :
  uuids_nonempty history → run history !! "" = None.
Proof.
  intros Hu. destruct (run history !! "") as [e |] eqn:He; [| done].
  destruct (session_inv_run history "" e He) as [_ (req & h & Hin & _ & Hk & _)].
  by destruct (request_key_nonempty req h (Hu req h Hin)).
Qed.

Lemma keys_nonempty_witness :
  run [EvFetch (post_offer (Some "") (Some sample_offer)) (host_at 1000)] !! "" = None.
Proof.
  apply keys_nonempty. intros req h Hin.
  apply list_elem_of_singleton in Hin. injection Hin as -> ->. discriminate.
Defined.

(** X16. [ReadSession] returns only what was stored: in a room with any
    history, a response other than the 404 shows the offer and answer of a
    record that a [CreateOffer] of the history stored under that key, at a
    clock reading that is not zero and at most the TTL before the sweep of
    the read. *)
Theorem read_returns_created history req h key :
  ReadSession key req →
  (Room_fetch req h (run history)).1 ≠ Return not_found →
  ∃ e,
    (Room_fetch req h (run history)).1
      = Return (session_view (offer e) (or_null (read_answer e))) ∧
    truthy (offer e) = true ∧
    created_by history (request_key req h) e ∧
    createdAt e ≠ 0 ∧
    now_gc h - createdAt e ≤ TTL * 1000.
Proof.
  intros H. rewrite (fetch_get_eq _ _ _ _ H). cbn zeta.
  destruct (gc (now_gc h) (run history) !! request_key req h) as [e |] eqn:He;
    [| done].
  intros _. exists e. split; [done |].
  unfold gc in He. apply gc_ttl_lookup_Some in He as [He Hl].
  destruct (session_inv_run history _ _ He) as [Ho Hc].
  apply expired_false in Hl as [Hz Hage]. done.
Qed.

Lemma read_returns_created_witness :
  let history := [EvFetch (post_offer (Some "k1") (Some sample_offer)) (host_at 1000)] in
  ∃ e,
    (Room_fetch (get_session (Some "k1")) (host_at 2000) (run history)).1
      = Return (session_view (offer e) (or_null (read_answer e))) ∧
    truthy (offer e) = true ∧
    created_by history (request_key (get_session (Some "k1")) (host_at 2000)) e ∧
    createdAt e ≠ 0 ∧
    now_gc (host_at 2000) - createdAt e ≤ TTL * 1000.
Proof.
  apply (read_returns_created
           [EvFetch (post_offer (Some "k1") (Some sample_offer)) (host_at 1000)]
           (get_session (Some "k1")) (host_at 2000) (Some "k1")).
  - repeat split; reflexivity.
  - vm_compute. discriminate.
Defined.

(** ** Bodies and paths the handlers do not insist on *)

(** X17. An answer body without an [answer] member is accepted: whenever
    reading [body.answer] yields [undefined] (the body is not JSON, is a
    number, a string, a boolean or an array, or is an object that has no
    such member), [SubmitAnswer] on a live record with an offer returns
    [{ok:true}], and a following read still reports the answer as
    [null]. *)
Theorem answer_without_member (s : gmap string entry) r2 h2 r3 h3 (K : string) p e :
  K ≠ "" →
  s !! K = Some e →
  truthy (offer e) = true →
  expired TTL (now_gc h2) e = false →
  expired TTL (now_gc h3) e = false →
  SubmitAnswer (Some K) p r2 →
  match p with
  | None => True
  | Some JNull => False
  | Some (JObject members) => member "answer" members = None
  | Some _ => True
  end →
  ReadSession (Some K) r3 →
  (Room_fetch r2 h2 s).1 = Return ok_view ∧
  (Room_fetch r3 h3 (Room_fetch r2 h2 s).2).1 = Return (session_view (offer e) JNull).
Proof.
  intros HK He Ho Hl2 Hl3 H2 Hp H3.
  assert (Ha : get_prop (default (JObject []) p) "answer" = Some JUndefined).
  { destruct p as [[] |]; simpl in *; try done. by rewrite Hp. }
  assert (Hk2 : request_key r2 h2 = K).
  { eapply request_key_given; [apply H2 | done..]. }
  assert (Hk3 : request_key r3 h3 = K).
  { eapply request_key_given; [apply H3 | done..]. }
  rewrite (fetch_answer_stores r2 h2 s _ _ e JUndefined H2); try done;
    [| by rewrite Hk2].
  rewrite Hk2. cbn [fst snd]. split; [done |].
  rewrite (fetch_get_reads r3 h3 _ _ (set_answer e JUndefined) H3); try done.
  rewrite Hk3. apply lookup_insert_eq.
Qed.

Lemma answer_without_member_witness :
  let s := {["k1" := fresh_entry sample_offer 1000]} in
  let r2 := post_answer (Some "k1") (Some sample_answer) in
  (Room_fetch r2 (host_at 2000) s).1 = Return ok_view ∧
  (Room_fetch (get_session (Some "k1")) (host_at 3000)
     (Room_fetch r2 (host_at 2000) s).2).1 = Return (session_view sample_offer JNull).
Proof.
  apply (answer_without_member {["k1" := fresh_entry sample_offer 1000]}
           (post_answer (Some "k1") (Some sample_answer)) (host_at 2000)
           (get_session (Some "k1")) (host_at 3000) "k1" (Some sample_answer)
           (fresh_entry sample_offer 1000)).
  - discriminate.
  - apply lookup_singleton_eq.
  - reflexivity.
  - reflexivity.
  - reflexivity.
  - repeat split; reflexivity.
  - reflexivity.
  - repeat split; reflexivity.
Defined.

Lemma Room_fetch_ext r1 r2 h (s : gmap string entry) :
  method r1 = method r2 → action_of r1 = action_of r2 →
  key_param r1 = key_param r2 → body r1 = body r2 →
  Room_fetch r1 h s = Room_fetch r2 h s.
Proof.
  intros Hm Ha Hk Hb. unfold Room_fetch, request_key. by rewrite Hm, Ha, Hk, Hb.
Qed.

(** X18. Only the first three parts of the path count: a request that is
    forwarded to a room, and any request with the same method, key and
    body whose path has the same first three parts (whatever follows the
    action, however many slashes separate the parts), have the same
    outcome and leave the same rooms. *)
Theorem fetch_path_prefix r1 r2 h (rooms : gmap string (gmap string entry)) slug :
  routed_to r1 slug →
  method r1 = method r2 → key_param r1 = key_param r2 → body r1 = body r2 →
  take 3 (path_parts (pathname r1)) = take 3 (path_parts (pathname r2)) →
  fetch r1 h rooms = fetch r2 h rooms.
Proof.
  intros Hr1 Hm Hk Hb Hparts.
  assert (Hr2 : routed_to r2 slug).
  { destruct Hr1 as (Hopt & action & rest & Heq). split; [by rewrite <- Hm |].
    rewrite Heq in Hparts. simpl in Hparts.
    destruct (path_parts (pathname r2)) as [| p0 [| p1 [| p2 rest2]]];
      simpl in Hparts; try discriminate.
    injection Hparts as <- <- <-. by exists action, rest2. }
  assert (Ha : action_of r1 = action_of r2).
  { unfold action_of. rewrite <- (lookup_take_lt (path_parts (pathname r1)) 3 2) by lia.
    rewrite <- (lookup_take_lt (path_parts (pathname r2)) 3 2) by lia.
    by rewrite Hparts. }
  rewrite (fetch_routed _ _ _ _ Hr1), (fetch_routed _ _ _ _ Hr2).
  by rewrite (Room_fetch_ext r1 r2 h _ Hm Ha Hk Hb).
Qed.

Lemma fetch_path_prefix_witness :
  fetch (post_offer (Some "k1") (Some sample_offer)) (host_at 1000) ∅
  = fetch (mkRequest "POST" "//room/alpha//offer/extra/" (Some "k1") (Some sample_offer))
      (host_at 1000) ∅.
Proof.
  apply (fetch_path_prefix (post_offer (Some "k1") (Some sample_offer))
           (mkRequest "POST" "//room/alpha//offer/extra/" (Some "k1") (Some sample_offer))
           (host_at 1000) ∅ "alpha").
  - split; [discriminate | by exists "offer", []].
  - reflexivity.
  - reflexivity.
  - reflexivity.
  - reflexivity.
Defined.
